(** * Examples/SecRandomCopyBytes.py

    A shallow embedding of the Python example that asks the Security
    framework for random bytes through [ctypes], and the properties of
    the example's specification, stated over that embedding.

    The script is
<<
    import ctypes
    import os

    def get_random_bytes(n):
      buf = (ctypes.c_ubyte * n)()
      result = ctypes.cdll.LoadLibrary(ctypes.util.find_library("Security")).SecRandomCopyBytes(None, n, buf)
      if result != 0:
        raise ValueError("Failed to generate random bytes")
      return bytes(buf)

    random_bytes = get_random_bytes(8)  # Generate 64-bit random number
    print("Random 64-bit number: ", random_bytes.hex())
>>
    Python code is embedded as a state-and-exception monad over a [World]
    (heap of ctypes arrays, module namespace, files, standard output and
    the log of calls into the platform).  Everything the interpreter's
    environment decides (how much memory can be had, which libraries
    resolve, what the primitive writes and returns) is a [Platform],
    over which the theorems quantify. *)

From Stdlib Require Import ZArith Lia.
From Stdlib Require Import Strings.Ascii Strings.Byte.
From stdpp Require Import gmap strings list pretty.

Local Open Scope string_scope.
Local Open Scope list_scope.
Local Open Scope Z_scope.

(** ** Python values and exceptions *)

(** The exceptions the example can raise: its own [ValueError], and the
    ones [ctypes] raises on its behalf. *)
Inductive PyExn : Type :=
| ValueError (msg : string)
| OverflowError (msg : string)
| AttributeError (attr : string)
| ArgumentError (msg : string)
| MemoryError
| OSError.

(** The specification calls the error of the single [raise] statement
    of the source [RandomGenerationError]. *)
Definition RandomGenerationError : PyExn :=
  ValueError "Failed to generate random bytes".

(** Objects bound in the module namespace. *)
Inductive PyObj : Type :=
| PyModule (name : string)
| PyFunction (name : string)
| PyBytes (b : list byte).

(** The result of running Python code: a value, or a raised exception. *)
Inductive Result (A : Type) : Type :=
| Ok (a : A)
| Raise (e : PyExn).
Arguments Ok {A} a.
Arguments Raise {A} e.

(** ** The C side, as [ctypes] presents it *)

(** A C pointer argument: [None] is passed as [NULL], a ctypes array as
    the address of its storage. *)
Inductive CPointer : Type :=
| NULL
| Ptr (a : positive).

(** One invocation of [SecRandomCopyBytes(rnd, count, bytes)] together
    with the status it returned. *)
Record Call : Type := mkCall {
  arg_rnd : CPointer;
  arg_count : Z;
  arg_bytes : CPointer;
  status : Z
}.

(** [sys.maxsize] of a 64-bit CPython: the largest [Py_ssize_t]. *)
Definition PY_SSIZE_T_MAX : Z := 2 ^ 63 - 1.

(** Why [ctypes.c_ubyte * n] is refused, if it is: the length is first
    converted to a [Py_ssize_t] and then checked for sign. *)
Definition array_length_error (n : Z) : option PyExn :=
  if (n <? - PY_SSIZE_T_MAX - 1) || (PY_SSIZE_T_MAX <? n)
  then Some (OverflowError "cannot fit 'int' into an index-sized integer")
  else if n <? 0
  then Some (ValueError ("Array length must be >= 0, not " +:+ pretty n))
  else None.

(** A Python [int] passed to a foreign function without declared
    [argtypes] becomes a C [int]: the value is masked to 32 bits. *)
Definition c_int (n : Z) : Z :=
  let m := n mod 2 ^ 32 in
  if m <? 2 ^ 31 then m else m - 2 ^ 32.

(** The conversion is refused when the value fits neither an
    [unsigned long] nor a [long]. *)
Definition as_c_int (n : Z) : option Z :=
  if (n <? - 2 ^ 63) || (2 ^ 64 <=? n) then None else Some (c_int n).

(** Every ctypes object carries a small buffer of its own (the
    [b_value] of a [CDataObject], 16 bytes); storage that fits in it is
    not allocated separately. *)
Definition INLINE_BUFFER : Z := 16.

(** The storage of a new array: [n] zero bytes. *)
Definition zeros (n : Z) : list byte := replicate (Z.to_nat n) x00.

(** Storing [written] at the start of an array whose storage holds
    [old]: the array keeps its size, whatever the callee writes. *)
Definition poke (old written : list byte) : list byte :=
  take (length old) written ++ drop (length written) old.

(** ** The platform *)

(** What the environment of the interpreter decides.
    - [ctypes_util]: whether the submodule [ctypes.util] is bound as an
      attribute of the package [ctypes] (the script itself only runs
      [import ctypes]);
    - [find_library]: the result of [ctypes.util.find_library];
    - [dlopen]: whether [ctypes.cdll.LoadLibrary name] finds the library
      ([None] names the running process);
    - [dlsym]: whether the loaded library exports the symbol;
    - [SecRandomCopyBytes]: the primitive: from the calls made so far,
      its three arguments and the current contents of the buffer, the
      status it returns and the bytes it stores through [bytes];
    - [malloc]: whether the process can be given a block of that many
      bytes. *)
Record Platform : Type := mkPlatform {
  malloc : Z -> bool;
  ctypes_util : bool;
  find_library : string -> option string;
  dlopen : option string -> bool;
  dlsym : option string -> string -> bool;
  SecRandomCopyBytes : list Call -> CPointer -> Z -> list byte -> Z * list byte
}.

(** Why the storage of an array of [n] bytes cannot be had, if it
    cannot: storage beyond the inline buffer is allocated, and
    [MemoryError] is raised when the allocation fails. *)
Definition allocation_error (P : Platform) (n : Z) : option PyExn :=
  if (n <=? INLINE_BUFFER) || malloc P n then None else Some MemoryError.

(** Why [(ctypes.c_ubyte * n)()] raises, if it does: the array type is
    made first, then its instance. *)
Definition buffer_error (P : Platform) (n : Z) : option PyExn :=
  match array_length_error n with
  | Some e => Some e
  | None => allocation_error P n
  end.

(** ** The state of a run *)

Record World : Type := mkWorld {
  heap : gmap positive (list byte);   (* storage of the ctypes arrays *)
  globals : gmap string PyObj;        (* the module namespace *)
  files : gmap string (list byte);    (* persisted files *)
  stdout : string;                    (* text printed so far *)
  calls : list Call                   (* platform calls so far, oldest first *)
}.

Definition set_heap (h : gmap positive (list byte)) (w : World) : World :=
  mkWorld h (globals w) (files w) (stdout w) (calls w).
Definition set_globals (g : gmap string PyObj) (w : World) : World :=
  mkWorld (heap w) g (files w) (stdout w) (calls w).
Definition set_stdout (s : string) (w : World) : World :=
  mkWorld (heap w) (globals w) (files w) s (calls w).
Definition set_calls (cs : list Call) (w : World) : World :=
  mkWorld (heap w) (globals w) (files w) (stdout w) cs.

(** ** The monad of Python code *)

Definition Py (A : Type) : Type := World -> Result A * World.

Definition ret {A} (a : A) : Py A := fun w => (Ok a, w).
Definition raise {A} (e : PyExn) : Py A := fun w => (Raise e, w).
Definition bind {A B} (m : Py A) (k : A -> Py B) : Py B :=
  fun w => match m w with
           | (Ok a, w1) => k a w1
           | (Raise e, w1) => (Raise e, w1)
           end.

Declare Scope py_scope.
Delimit Scope py_scope with py.
Notation "'let*' x ':=' m 'in' k" := (bind m (fun x => k))
  (at level 10, x name, m at level 100, k at level 200) : py_scope.
Notation "m ';;;' k" := (bind m (fun _ => k))
  (at level 100, k at level 200, right associativity) : py_scope.

(** The value a run produces, and the world it leaves. *)
Definition outcome {A} (m : Py A) (w : World) : Result A := fst (m w).
Definition after {A} (m : Py A) (w : World) : World := snd (m w).

(** ** The library calls of the example *)

Section Program.

Context (P : Platform).
Local Open Scope py_scope.

(** [(ctypes.c_ubyte * n)()]: a new array of [n] bytes, all zero;
    the length is checked when the array type is made, the storage is
    allocated when the instance is. *)
Definition c_ubyte_array (n : Z) : Py positive :=
  fun w =>
    match array_length_error n with
    | Some e => (Raise e, w)
    | None =>
        match allocation_error P n with
        | Some e => (Raise e, w)
        | None =>
            let a := fresh (dom (heap w)) in
            (Ok a, set_heap (<[a := zeros n]> (heap w)) w)
        end
    end.

(** [ctypes.util.find_library(name)]. *)
Definition ctypes_util_find_library (name : string) : Py (option string) :=
  if ctypes_util P then ret (find_library P name)
  else raise (AttributeError "util").

(** [ctypes.cdll.LoadLibrary(name)]; the library is known by its name. *)
Definition LoadLibrary (name : option string) : Py (option string) :=
  if dlopen P name then ret name else raise OSError.

(** The foreign function, called with a pointer, a Python [int] and a
    ctypes array: the arguments are converted, the primitive runs, what
    it stores lands in the array, and the call is logged. *)
Definition foreign_SecRandomCopyBytes
    (rnd : CPointer) (n : Z) (buf : positive) : Py Z :=
  fun w =>
    match as_c_int n with
    | None =>
        (Raise (ArgumentError "argument 2: OverflowError: int too long to convert"), w)
    | Some count =>
        let old := default [] (heap w !! buf) in
        let '(st, written) := SecRandomCopyBytes P (calls w) rnd count old in
        (Ok st,
         set_calls (calls w ++ [mkCall rnd count (Ptr buf) st])
           (set_heap (<[buf := poke old written]> (heap w)) w))
    end.

(** [lib.SecRandomCopyBytes]: attribute access on a loaded library looks
    the symbol up and yields the foreign function. *)
Definition getattr_SecRandomCopyBytes (lib : option string)
    : Py (CPointer -> Z -> positive -> Py Z) :=
  if dlsym P lib "SecRandomCopyBytes" then ret foreign_SecRandomCopyBytes
  else raise (AttributeError "SecRandomCopyBytes").

(** [bytes(buf)]: a copy of the array's storage. *)
Definition bytes (buf : positive) : Py (list byte) :=
  fun w => (Ok (default [] (heap w !! buf)), w).

(** Binding a name in the module namespace. *)
Definition assign (name : string) (v : PyObj) : Py unit :=
  fun w => (Ok tt, set_globals (<[name := v]> (globals w)) w).

Definition newline : string := String (ascii_of_nat 10) "".

(** [print] with several arguments: the arguments separated by one space, then a newline. *)
Definition print (args : list string) : Py unit :=
  fun w =>
    (Ok tt, set_stdout (stdout w +:+ String.concat " " args +:+ newline) w).

(** [bytes.hex()]: two lowercase hexadecimal digits per byte. *)
Definition hexdigit (d : N) : ascii :=
  default "0"%char (String.get (N.to_nat d) "0123456789abcdef").

Definition hex_byte (b : byte) : string :=
  String (hexdigit (Byte.to_N b / 16))
    (String (hexdigit (Byte.to_N b mod 16)) "").

Definition hex (bs : list byte) : string :=
  foldr (fun b s => hex_byte b +:+ s) "" bs.

(** ** The example *)

Definition get_random_bytes (n : Z) : Py (list byte) :=
  let* buf := c_ubyte_array n in
  let* name := ctypes_util_find_library "Security" in
  let* lib := LoadLibrary name in
  let* SecRandomCopyBytes := getattr_SecRandomCopyBytes lib in
  let* result := SecRandomCopyBytes NULL n buf in
  if negb (result =? 0)
  then raise (ValueError "Failed to generate random bytes")
  else bytes buf.

(** The whole script: the two imports and the definition bind names,
    then the two statements at the end run. *)
Definition program : Py unit :=
  assign "ctypes" (PyModule "ctypes") ;;;
  assign "os" (PyModule "os") ;;;
  assign "get_random_bytes" (PyFunction "get_random_bytes") ;;;
  let* random_bytes := get_random_bytes 8 in
  assign "random_bytes" (PyBytes random_bytes) ;;;
  print ["Random 64-bit number: "; hex random_bytes].

(** Why the foreign function cannot be reached, if it cannot. *)
Definition resolve_error : option PyExn :=
  if negb (ctypes_util P) then Some (AttributeError "util")
  else if negb (dlopen P (find_library P "Security")) then Some OSError
  else if negb (dlsym P (find_library P "Security") "SecRandomCopyBytes")
  then Some (AttributeError "SecRandomCopyBytes")
  else None.

End Program.

(** ** Concrete platforms and worlds *)

Definition Security_framework : string :=
  "/System/Library/Frameworks/Security.framework/Security".

(** A platform on which everything resolves and blocks below [2^47]
    bytes can be allocated; its primitive stores [count] bytes that vary
    with the position and with the number of earlier calls, and reports
    success. *)
Definition demo_fill (history : list Call) (count : Z) : list byte :=
  map (fun i => default x00
                  (Byte.of_N ((37 * N.of_nat i + 101 * N.of_nat (length history) + 171)
                              mod 256)%N))
      (seq 0 (Z.to_nat count)).

Definition demo_platform : Platform :=
  mkPlatform (fun size => size <? 2 ^ 47) true
    (fun name => if String.eqb name "Security" then Some Security_framework else None)
    (fun _ => true)
    (fun lib _ => bool_decide (lib = Some Security_framework))
    (fun history _ count _ => (0, demo_fill history count)).

(** The same platform with a primitive that reports [-1] after storing
    [partial] in the buffer. *)
Definition failing_platform (partial : list byte) : Platform :=
  mkPlatform (malloc demo_platform) true (find_library demo_platform) (dlopen demo_platform)
    (dlsym demo_platform)
    (fun _ _ _ _ => (-1, partial)).

(** An interpreter that has run [import ctypes] and nothing more. *)
Definition stock_interpreter : Platform :=
  mkPlatform (malloc demo_platform) false (find_library demo_platform) (dlopen demo_platform)
    (dlsym demo_platform) (SecRandomCopyBytes demo_platform).

Definition initial_world : World := mkWorld ∅ ∅ ∅ "" [].

(** A platform on which everything resolves and whose primitive
    reports success after storing [stored], however many bytes were
    asked for. *)
Definition terse_platform (stored : list byte) : Platform :=
  mkPlatform (malloc demo_platform) true (find_library demo_platform) (dlopen demo_platform)
    (dlsym demo_platform)
    (fun _ _ _ _ => (0, stored)).

(** A system without the Security framework: [find_library] finds
    nothing, the running process can be opened, and it exports no
    symbol of that name. *)
Definition no_framework_platform : Platform :=
  mkPlatform (malloc demo_platform) true (fun _ => None) (fun _ => true) (fun _ _ => false)
    (SecRandomCopyBytes demo_platform).

(** A world in which one array already lives and nothing was printed. *)
Definition busy_world : World :=
  mkWorld {[ 1%positive := [x00] ]} {[ "os" := PyModule "os" ]} ∅ "" [].

(** ** Calls into the platform made by a run *)

(** The run of [m] from [w] made exactly the platform call [c]. *)
Definition invoked_once {A} (m : Py A) (w : World) (c : Call) : Prop :=
  calls (after m w) = calls w ++ [c].

(** The run of [m] from [w] made no platform call. *)
Definition invoked_never {A} (m : Py A) (w : World) : Prop :=
  calls (after m w) = calls w.

(** [bs] is what the buffer handed to the call [c] holds in [w]. *)
Definition is_buffer_of (c : Call) (w : World) (bs : list byte) : Prop :=
  exists a, arg_bytes c = Ptr a /\ heap w !! a = Some bs.

(** What the primitive answers when [get_random_bytes n] reaches it
    from the world [w]: a status and the bytes it stores. *)
Definition answer (P : Platform) (n : Z) (w : World) : Z * list byte :=
  SecRandomCopyBytes P (calls w) NULL (c_int n) (zeros n).

(** The world in which the script calls [get_random_bytes 8]: the names
    of the imports and of the function are bound. *)
Definition prelude (w : World) : World :=
  set_globals
    (<["get_random_bytes" := PyFunction "get_random_bytes"]>
       (<["os" := PyModule "os"]>
          (<["ctypes" := PyModule "ctypes"]> (globals w))))
    w.

(** ** Text *)

Fixpoint occurrences (c : ascii) (s : string) : nat :=
  match s with
  | EmptyString => 0%nat
  | String d s' => ((if Ascii.eqb c d then 1 else 0) + occurrences c s')%nat
  end.

Fixpoint string_forallb (p : ascii -> bool) (s : string) : bool :=
  match s with
  | EmptyString => true
  | String d s' => p d && string_forallb p s'
  end.

Definition is_lower_hexdigit (c : ascii) : bool :=
  bool_decide (c ∈ String.list_ascii_of_string "0123456789abcdef").

(** Reading a lowercase hexadecimal digit back, and two of them as a
    byte. *)
Definition unhex_digit (c : ascii) : option N :=
  let i := N_of_ascii c in
  if (48 <=? i)%N && (i <=? 57)%N then Some (i - 48)%N
  else if (97 <=? i)%N && (i <=? 102)%N then Some (i - 87)%N
  else None.

Definition unhex_byte (c1 c2 : ascii) : option byte :=
  match unhex_digit c1, unhex_digit c2 with
  | Some d1, Some d2 => Byte.of_N (16 * d1 + d2)
  | _, _ => None
  end.

(** * Properties *)

(** ** Library facts *)

Lemma length_poke (old written : list byte) :
  length (poke old written) = length old.
Proof.
  unfold poke. rewrite length_app, length_take, length_drop. lia.
Qed.

Lemma length_zeros (n : Z) : 0 <= n -> Z.of_nat (length (zeros n)) = n.
Proof. intros Hn. unfold zeros. rewrite length_replicate. lia. Qed.

Lemma array_length_ok (n : Z) :
  array_length_error n = None <-> 0 <= n <= PY_SSIZE_T_MAX.
Proof.
  unfold array_length_error, PY_SSIZE_T_MAX.
  destruct (n <? _) eqn:H1; destruct (_ <? n) eqn:H2; simpl;
    try destruct (n <? 0) eqn:H3; split; intros H; try discriminate; try reflexivity; lia.
Qed.

Lemma array_length_negative (n : Z) :
  n < 0 -> exists e, array_length_error n = Some e.
Proof.
  intros Hn. destruct (array_length_error n) as [e|] eqn:E; [eauto|].
  apply array_length_ok in E. lia.
Qed.

Lemma buffer_ok (P : Platform) (n : Z) :
  buffer_error P n = None
  <-> 0 <= n <= PY_SSIZE_T_MAX /\ allocation_error P n = None.
Proof.
  unfold buffer_error. rewrite <- array_length_ok.
  destruct (array_length_error n); split; intros H; try discriminate; tauto.
Qed.

Lemma buffer_error_length (P : Platform) (n : Z) (e : PyExn) :
  array_length_error n = Some e -> buffer_error P n = Some e.
Proof. intros H. unfold buffer_error. rewrite H. reflexivity. Qed.

Lemma buffer_inline (P : Platform) (n : Z) :
  0 <= n <= INLINE_BUFFER -> buffer_error P n = None.
Proof.
  intros Hn. apply buffer_ok. unfold allocation_error, INLINE_BUFFER, PY_SSIZE_T_MAX in *.
  destruct (n <=? 16) eqn:E; [split; [lia|reflexivity]|lia].
Qed.

Lemma as_c_int_array (n : Z) :
  array_length_error n = None -> as_c_int n = Some (c_int n).
Proof.
  intros H%array_length_ok. unfold as_c_int, PY_SSIZE_T_MAX in *.
  destruct (n <? _) eqn:H1; destruct (_ <=? n) eqn:H2; simpl; try reflexivity; lia.
Qed.

Lemma c_int_small (n : Z) : 0 <= n < 2 ^ 31 -> c_int n = n.
Proof.
  intros Hn. unfold c_int. rewrite Z.mod_small by lia.
  destruct (n <? 2 ^ 31) eqn:E; lia.
Qed.


(** ** The run of [get_random_bytes], case by case *)

Lemma get_random_bytes_eq (P : Platform) (n : Z) (w : World) :
  get_random_bytes P n w =
  match buffer_error P n with
  | Some e => (Raise e, w)
  | None =>
      let a := fresh (dom (heap w)) in
      match resolve_error P with
      | Some e => (Raise e, set_heap (<[a := zeros n]> (heap w)) w)
      | None =>
          let st := fst (answer P n w) in
          let stored := poke (zeros n) (snd (answer P n w)) in
          (if st =? 0 then Ok stored else Raise RandomGenerationError,
           mkWorld (<[a := stored]> (heap w)) (globals w) (files w) (stdout w)
                   (calls w ++ [mkCall NULL (c_int n) (Ptr a) st]))
      end
  end.
Proof.
  unfold get_random_bytes, bind, c_ubyte_array, buffer_error.
  destruct (array_length_error n) as [e|] eqn:Hlen; [reflexivity|].
  destruct (allocation_error P n) as [e|]; [reflexivity|].
  unfold ctypes_util_find_library, resolve_error.
  destruct (ctypes_util P); [|reflexivity]. cbn.
  unfold LoadLibrary.
  destruct (dlopen P (find_library P "Security")); [|reflexivity]. cbn.
  unfold getattr_SecRandomCopyBytes.
  destruct (dlsym P (find_library P "Security") "SecRandomCopyBytes"); [|reflexivity].
  cbn. unfold foreign_SecRandomCopyBytes.
  rewrite (as_c_int_array n Hlen). cbn.
  rewrite lookup_insert_eq. cbn. unfold answer.
  destruct (SecRandomCopyBytes P (calls w) NULL (c_int n) (zeros n)) as [st written].
  cbn. rewrite insert_insert_eq.
  destruct (st =? 0); cbn; unfold bytes, raise, set_calls, set_heap; cbn.
  - rewrite lookup_insert_eq. reflexivity.
  - reflexivity.
Qed.

Ltac run_cases P n w :=
  unfold invoked_once, invoked_never in *; unfold outcome, after in *;
  rewrite ?(get_random_bytes_eq P n w) in *; cbv zeta in *;
  destruct (buffer_error P n) as [?e|] eqn:?Hlen;
  [| destruct (resolve_error P) as [?e|] eqn:?Hres;
     [| destruct (fst (answer P n w) =? 0) eqn:?Hst ]];
  cbn [fst snd calls heap globals files stdout set_heap] in *.

Lemma app_singleton_inv {A} (l : list A) (c : A) : l = l ++ [c] -> False.
Proof.
  intros H. apply (f_equal length) in H. rewrite length_app in H. cbn in H. lia.
Qed.




(** When the array is built (its length accepted, its storage had) and
    the primitive is within reach, the run makes the call and looks at
    its status. *)
Lemma run_reached (P : Platform) (n : Z) (w : World) :
  buffer_error P n = None ->
  resolve_error P = None ->
  get_random_bytes P n w =
  (if fst (answer P n w) =? 0
   then Ok (poke (zeros n) (snd (answer P n w)))
   else Raise RandomGenerationError,
   mkWorld (<[fresh (dom (heap w)) := poke (zeros n) (snd (answer P n w))]> (heap w))
           (globals w) (files w) (stdout w)
           (calls w ++ [mkCall NULL (c_int n) (Ptr (fresh (dom (heap w))))
                               (fst (answer P n w))])).
Proof. intros Hlen Hres. rewrite get_random_bytes_eq, Hlen, Hres. reflexivity. Qed.

(** A call that was made tells that the array was built and the
    primitive within reach, and which call it was. *)
Lemma run_invoked (P : Platform) (n : Z) (w : World) (c : Call) :
  invoked_once (get_random_bytes P n) w c ->
  buffer_error P n = None
  /\ resolve_error P = None
  /\ c = mkCall NULL (c_int n) (Ptr (fresh (dom (heap w)))) (fst (answer P n w)).
Proof.
  intros Hc. run_cases P n w.
  - destruct (app_singleton_inv _ _ Hc).
  - destruct (app_singleton_inv _ _ Hc).
  - apply app_inj_tail in Hc as [_ <-]. auto.
  - apply app_inj_tail in Hc as [_ <-]. auto.
Qed.

(** A value that was returned tells that the call was made, that its
    status was zero, and that the value is the buffer after the call. *)
Lemma run_returned (P : Platform) (n : Z) (w : World) (bs : list byte) :
  outcome (get_random_bytes P n) w = Ok bs ->
  buffer_error P n = None
  /\ resolve_error P = None
  /\ fst (answer P n w) = 0
  /\ bs = poke (zeros n) (snd (answer P n w)).
Proof.
  intros Hok. run_cases P n w; try discriminate.
  injection Hok as <-. apply Z.eqb_eq in Hst. auto.
Qed.

(** ** Length of the result *)

(** C1. For every non-negative [n], whenever [get_random_bytes n]
    returns (which it does only after the platform reported status
    zero), the value returned is a byte sequence of length exactly [n]. *)
Theorem get_random_bytes_length (P : Platform) (n : Z) (w : World) (bs : list byte) :
  0 <= n ->
  outcome (get_random_bytes P n) w = Ok bs ->
  Z.of_nat (length bs) = n.
Proof.
  intros Hn Hok. apply run_returned in Hok as (_ & _ & _ & ->).
  rewrite length_poke. apply length_zeros, Hn.
Qed.

Lemma get_random_bytes_length_witness :
  0 <= 3 /\
  outcome (get_random_bytes demo_platform 3) initial_world = Ok [xab; xd0; xf5] /\
  Z.of_nat (length [xab; xd0; xf5]) = 3.
Proof.
  split; [lia|]. split; [reflexivity|].
  apply (get_random_bytes_length demo_platform 3 initial_world); [lia|reflexivity].
Defined.

(** ** The status check *)


(** C3. Whenever the platform call returns a status other than zero,
    [get_random_bytes] raises its error and returns no value at all: no
    byte sequence, be it the partially filled or the still zero buffer,
    comes back as a result. *)
Theorem get_random_bytes_failure_returns_nothing
    (P : Platform) (n : Z) (w : World) (c : Call) :
  invoked_once (get_random_bytes P n) w c ->
  status c <> 0 ->
  outcome (get_random_bytes P n) w = Raise RandomGenerationError
  /\ forall bs, outcome (get_random_bytes P n) w <> Ok bs.
Proof.
  intros Hc Hstatus. apply run_invoked in Hc as (Hlen & Hres & ->).
  cbn in Hstatus. apply Z.eqb_neq in Hstatus.
  unfold outcome. rewrite (run_reached P n w Hlen Hres), Hstatus. cbn.
  split; [reflexivity|discriminate].
Qed.

Lemma get_random_bytes_failure_returns_nothing_witness :
  invoked_once (get_random_bytes (failing_platform [xab]) 3) initial_world
    (mkCall NULL 3 (Ptr 1) (-1))
  /\ heap (after (get_random_bytes (failing_platform [xab]) 3) initial_world) !! 1%positive
     = Some [xab; x00; x00]
  /\ status (mkCall NULL 3 (Ptr 1) (-1)) <> 0
  /\ outcome (get_random_bytes (failing_platform [xab]) 3) initial_world
     = Raise RandomGenerationError
  /\ forall bs, outcome (get_random_bytes (failing_platform [xab]) 3) initial_world <> Ok bs.
Proof.
  split; [reflexivity|]. split; [reflexivity|]. split; [simpl; lia|].
  apply (get_random_bytes_failure_returns_nothing (failing_platform [xab]) 3
           initial_world (mkCall NULL 3 (Ptr 1) (-1))); [reflexivity|simpl; lia].
Defined.

(** ** The empty request *)

(** C4, as the specification states it, fails: a request for zero bytes
    is checked like any other, so on a platform whose primitive reports
    [-1] the call [get_random_bytes 0] raises. *)
Lemma get_random_bytes_zero_may_raise :
  outcome (get_random_bytes (failing_platform []) 0) initial_world
  = Raise RandomGenerationError
  /\ outcome (get_random_bytes (failing_platform []) 0) initial_world <> Ok [].
Proof. split; [reflexivity|discriminate]. Qed.

(** C4 (amended). For [n = 0], whenever the platform call is made and
    returns status zero, [get_random_bytes 0] raises no error and returns
    the empty byte sequence. *)
Theorem get_random_bytes_zero (P : Platform) (w : World) (c : Call) :
  invoked_once (get_random_bytes P 0) w c ->
  status c = 0 ->
  outcome (get_random_bytes P 0) w = Ok [].
Proof.
  intros Hc Hstatus. apply run_invoked in Hc as (Hlen & Hres & ->).
  cbn in Hstatus. apply Z.eqb_eq in Hstatus.
  unfold outcome. rewrite (run_reached P 0 w Hlen Hres), Hstatus. cbn.
  f_equal. apply nil_length_inv. apply length_poke.
Qed.

Lemma get_random_bytes_zero_witness :
  invoked_once (get_random_bytes demo_platform 0) initial_world
    (mkCall NULL 0 (Ptr 1) 0)
  /\ outcome (get_random_bytes demo_platform 0) initial_world = Ok [].
Proof.
  split; [reflexivity|].
  apply (get_random_bytes_zero demo_platform initial_world (mkCall NULL 0 (Ptr 1) 0));
    reflexivity.
Defined.

(** ** Negative lengths *)

(** C10. For every negative [n], [get_random_bytes n] raises an error
    while it builds the buffer, and the platform's primitive is never
    called: the world is left exactly as it was. *)
Theorem get_random_bytes_negative (P : Platform) (n : Z) (w : World) :
  n < 0 ->
  (exists e, array_length_error n = Some e
             /\ outcome (get_random_bytes P n) w = Raise e)
  /\ invoked_never (get_random_bytes P n) w
  /\ after (get_random_bytes P n) w = w.
Proof.
  intros Hn. destruct (array_length_negative n Hn) as [e He].
  unfold invoked_never, outcome, after.
  rewrite get_random_bytes_eq, (buffer_error_length P n e He). cbn.
  split; [eauto|]. split; reflexivity.
Qed.

Lemma get_random_bytes_negative_witness :
  -1 < 0
  /\ outcome (get_random_bytes demo_platform (-1)) initial_world
     = Raise (ValueError "Array length must be >= 0, not -1")
  /\ invoked_never (get_random_bytes demo_platform (-1)) initial_world
  /\ after (get_random_bytes demo_platform (-1)) initial_world = initial_world.
Proof.
  split; [lia|]. split; [reflexivity|].
  apply (get_random_bytes_negative demo_platform (-1) initial_world). lia.
Defined.

(** ** What a call leaves untouched *)


(** ** One call into the platform *)




(** For every [n] at all, a call makes at most one invocation. *)
Lemma get_random_bytes_at_most_one_invocation (P : Platform) (n : Z) (w : World) :
  invoked_never (get_random_bytes P n) w
  \/ exists c, invoked_once (get_random_bytes P n) w c.
Proof. run_cases P n w; eauto. Qed.

(** Where [ctypes.util] is not bound, which is the case after
    [import ctypes] alone, no length gets as far as the primitive. *)
Lemma get_random_bytes_unbound_util (P : Platform) (n : Z) (w : World) :
  ctypes_util P = false ->
  buffer_error P n = None ->
  outcome (get_random_bytes P n) w = Raise (AttributeError "util")
  /\ invoked_never (get_random_bytes P n) w.
Proof.
  intros Hutil Hn. unfold invoked_never, outcome, after.
  rewrite get_random_bytes_eq, Hn. unfold resolve_error. rewrite Hutil.
  split; reflexivity.
Qed.

Example program_on_stock_interpreter :
  outcome (program stock_interpreter) initial_world = Raise (AttributeError "util")
  /\ stdout (after (program stock_interpreter) initial_world) = "".
Proof. split; reflexivity. Qed.

(** Two calls in a row make two invocations: the second one asks the
    platform again. *)
Lemma get_random_bytes_twice (P : Platform) (n m : Z) (w : World) :
  buffer_error P n = None -> buffer_error P m = None ->
  resolve_error P = None ->
  exists c1 c2,
    calls (after (get_random_bytes P m) (after (get_random_bytes P n) w))
    = calls w ++ [c1; c2].
Proof.
  intros Hn Hm Hres. unfold after.
  rewrite (run_reached P n w Hn Hres). cbn [snd].
  rewrite (run_reached P m _ Hm Hres). cbn [snd calls].
  eexists _, _. rewrite <- app_assoc. reflexivity.
Qed.

(** ** The arguments of the call *)

Lemma poke_nothing (old : list byte) : poke old [] = old.
Proof. unfold poke. rewrite take_nil. reflexivity. Qed.

(** C5. The call is meant to pass [n] as the byte count, but no
    [argtypes] are declared, so [ctypes] passes the Python [int] as a
    32-bit C [int]: for [n = 2^32], with the library resolved and the
    4 GiB buffer built, the primitive is invoked with the byte count
    [0], not [2^32]; it stores nothing and reports success, and
    [get_random_bytes] returns [2^32] zero bytes as its result. *)
Theorem get_random_bytes_count_truncated :
  exists a,
    invoked_once (get_random_bytes demo_platform (2 ^ 32)) initial_world
      (mkCall NULL 0 (Ptr a) 0)
    /\ outcome (get_random_bytes demo_platform (2 ^ 32)) initial_world
       = Ok (zeros (2 ^ 32)).
Proof.
  exists (fresh (dom (heap initial_world))).
  unfold invoked_once, outcome, after.
  rewrite (run_reached demo_platform (2 ^ 32) initial_world); [|reflexivity..].
  change (answer demo_platform (2 ^ 32) initial_world)
    with (0, demo_fill [] (c_int (2 ^ 32))).
  change (c_int (2 ^ 32)) with 0.
  change (demo_fill [] 0) with (@nil byte).
  cbn [fst snd calls]. rewrite poke_nothing. split; reflexivity.
Qed.

(** ** The script *)

Lemma append_assoc (s t u : string) : (s +:+ t) +:+ u = s +:+ t +:+ u.
Proof.
  induction s as [|c s IH]; [reflexivity|].
  change (String c ((s +:+ t) +:+ u) = String c (s +:+ t +:+ u)).
  rewrite IH. reflexivity.
Qed.

Lemma program_eq (P : Platform) (w : World) :
  program P w =
  match get_random_bytes P 8 (prelude w) with
  | (Ok bs, w1) =>
      (Ok tt,
       set_stdout (stdout w1 +:+ "Random 64-bit number:  " +:+ hex bs +:+ newline)
         (set_globals (<["random_bytes" := PyBytes bs]> (globals w1)) w1))
  | (Raise e, w1) => (Raise e, w1)
  end.
Proof.
  unfold program, bind, assign, print, prelude. cbn.
  destruct (get_random_bytes P 8 _) as [[bs|e] w1]; [|reflexivity].
  cbn. rewrite !append_assoc. reflexivity.
Qed.

Lemma hex_cons (b : byte) (bs : list byte) :
  hex (b :: bs)
  = String (hexdigit (Byte.to_N b / 16))
      (String (hexdigit (Byte.to_N b mod 16)) (hex bs)).
Proof. reflexivity. Qed.

Lemma hexdigit_lower (b : byte) :
  is_lower_hexdigit (hexdigit (Byte.to_N b / 16)) = true
  /\ is_lower_hexdigit (hexdigit (Byte.to_N b mod 16)) = true.
Proof. destruct b; split; reflexivity. Qed.

Lemma length_hex (bs : list byte) :
  String.length (hex bs) = (2 * length bs)%nat.
Proof.
  induction bs as [|b bs IH]; [reflexivity|].
  rewrite hex_cons. cbn [String.length length]. rewrite IH. lia.
Qed.

Lemma hex_lower (bs : list byte) :
  string_forallb is_lower_hexdigit (hex bs) = true.
Proof.
  induction bs as [|b bs IH]; [reflexivity|].
  rewrite hex_cons. cbn [string_forallb].
  destruct (hexdigit_lower b) as [-> ->]. exact IH.
Qed.

Lemma occurrences_append (c : ascii) (s t : string) :
  occurrences c (s +:+ t) = (occurrences c s + occurrences c t)%nat.
Proof.
  induction s as [|d s IH]; [reflexivity|].
  change (String d s +:+ t) with (String d (s +:+ t)).
  cbn [occurrences]. rewrite IH. lia.
Qed.

Lemma lower_hex_no_newline (s : string) :
  string_forallb is_lower_hexdigit s = true ->
  occurrences (ascii_of_nat 10) s = 0%nat.
Proof.
  induction s as [|d s IH]; [reflexivity|].
  cbn [string_forallb occurrences]. intros [Hd Hs]%andb_prop.
  rewrite (IH Hs). destruct (Ascii.eqb_spec (ascii_of_nat 10) d) as [<-|]; [|reflexivity].
  discriminate Hd.
Qed.

(** C6. When the call with [n = 8] succeeds, the script prints exactly
    one line: the label, then the 8 bytes that were generated, each as
    two lowercase hexadecimal digits, 16 characters in all, then the end
    of the line. *)
Theorem program_prints_hex (P : Platform) (w : World) :
  outcome (program P) w = Ok tt ->
  exists bs,
    outcome (get_random_bytes P 8) (prelude w) = Ok bs
    /\ length bs = 8%nat
    /\ stdout (after (program P) w)
       = stdout w +:+ ("Random 64-bit number:  " +:+ hex bs) +:+ newline
    /\ String.length (hex bs) = 16%nat
    /\ string_forallb is_lower_hexdigit (hex bs) = true
    /\ occurrences (ascii_of_nat 10) ("Random 64-bit number:  " +:+ hex bs) = 0%nat.
Proof.
  unfold outcome, after. rewrite program_eq.
  destruct (get_random_bytes P 8 (prelude w)) as [[bs|e] w1] eqn:Hrun;
    [|discriminate].
  intros _. exists bs. cbn [fst snd stdout set_stdout].
  assert (outcome (get_random_bytes P 8) (prelude w) = Ok bs) as Hok
    by (unfold outcome; rewrite Hrun; reflexivity).
  assert (length bs = 8%nat) as Hlen.
  { apply run_returned in Hok as (_ & _ & _ & ->). rewrite length_poke. reflexivity. }
  assert (stdout w1 = stdout w) as ->.
  { change w1 with (snd (Ok bs, w1)). rewrite <- Hrun.
    apply run_returned in Hok as (Hl & Hr & _). rewrite (run_reached _ _ _ Hl Hr).
    reflexivity. }
  split; [reflexivity|]. split; [exact Hlen|].
  split; [rewrite !append_assoc; reflexivity|].
  split; [rewrite length_hex, Hlen; reflexivity|].
  split; [apply hex_lower|].
  rewrite occurrences_append, (lower_hex_no_newline _ (hex_lower bs)). reflexivity.
Qed.

Lemma program_prints_hex_witness :
  outcome (program demo_platform) initial_world = Ok tt
  /\ stdout (after (program demo_platform) initial_world)
     = "Random 64-bit number:  abd0f51a3f6489ae" +:+ newline
  /\ exists bs,
       outcome (get_random_bytes demo_platform 8) (prelude initial_world) = Ok bs
       /\ length bs = 8%nat
       /\ stdout (after (program demo_platform) initial_world)
          = stdout initial_world +:+ ("Random 64-bit number:  " +:+ hex bs) +:+ newline
       /\ String.length (hex bs) = 16%nat
       /\ string_forallb is_lower_hexdigit (hex bs) = true
       /\ occurrences (ascii_of_nat 10) ("Random 64-bit number:  " +:+ hex bs) = 0%nat.
Proof.
  split; [reflexivity|]. split; [reflexivity|].
  apply (program_prints_hex demo_platform initial_world). reflexivity.
Defined.

(** C7. When the platform call returns a status other than zero, the
    script ends with the uncaught error and prints nothing: the line
    "Random 64-bit number" never appears. *)
Theorem program_failure_prints_nothing (P : Platform) (w : World) (c : Call) :
  invoked_once (program P) w c ->
  status c <> 0 ->
  outcome (program P) w = Raise RandomGenerationError
  /\ stdout (after (program P) w) = stdout w.
Proof.
  unfold invoked_once, outcome, after. rewrite program_eq.
  intros Hc Hstatus.
  assert (invoked_once (get_random_bytes P 8) (prelude w) c) as Hrun.
  { unfold invoked_once, after.
    destruct (get_random_bytes P 8 (prelude w)) as [[bs|e] w1]; exact Hc. }
  apply run_invoked in Hrun as (Hlen & Hres & ->).
  cbn in Hstatus. apply Z.eqb_neq in Hstatus.
  rewrite (run_reached P 8 _ Hlen Hres), Hstatus. cbn. split; reflexivity.
Qed.

Lemma program_failure_prints_nothing_witness :
  invoked_once (program (failing_platform [xab; xcd])) initial_world
    (mkCall NULL 8 (Ptr 1) (-1))
  /\ outcome (program (failing_platform [xab; xcd])) initial_world
     = Raise RandomGenerationError
  /\ stdout (after (program (failing_platform [xab; xcd])) initial_world)
     = stdout initial_world.
Proof.
  split; [reflexivity|].
  apply (program_failure_prints_nothing (failing_platform [xab; xcd]) initial_world
           (mkCall NULL 8 (Ptr 1) (-1))); [reflexivity|simpl; lia].
Defined.

(** * Further properties of the example *)

(** ** Lengths the array constructor refuses *)

(** X1. A length that does not fit a [Py_ssize_t], on either side,
    makes [get_random_bytes] raise [OverflowError] on its first line:
    the world is left as it was and the platform is not called. *)
Theorem get_random_bytes_unindexable (P : Platform) (n : Z) (w : World) :
  n < - PY_SSIZE_T_MAX - 1 \/ PY_SSIZE_T_MAX < n ->
  outcome (get_random_bytes P n) w
  = Raise (OverflowError "cannot fit 'int' into an index-sized integer")
  /\ after (get_random_bytes P n) w = w.
Proof.
  intros Hn. unfold outcome, after. rewrite get_random_bytes_eq.
  unfold buffer_error, array_length_error.
  destruct (n <? - PY_SSIZE_T_MAX - 1) eqn:H1; [split; reflexivity|].
  destruct (PY_SSIZE_T_MAX <? n) eqn:H2; [split; reflexivity|]. lia.
Qed.

Lemma get_random_bytes_unindexable_witness :
  (2 ^ 63 < - PY_SSIZE_T_MAX - 1 \/ PY_SSIZE_T_MAX < 2 ^ 63)
  /\ outcome (get_random_bytes demo_platform (2 ^ 63)) initial_world
     = Raise (OverflowError "cannot fit 'int' into an index-sized integer")
  /\ after (get_random_bytes demo_platform (2 ^ 63)) initial_world = initial_world.
Proof.
  split; [right; unfold PY_SSIZE_T_MAX; lia|].
  apply (get_random_bytes_unindexable demo_platform (2 ^ 63) initial_world).
  right. unfold PY_SSIZE_T_MAX. lia.
Defined.

(** X2. A negative length that fits a [Py_ssize_t] makes
    [get_random_bytes] raise a [ValueError] whose message names the
    length: an exception of the same class as the one the function
    raises itself after a failed platform call, and yet another one. *)
Theorem get_random_bytes_negative_value_error (P : Platform) (n : Z) (w : World) :
  - PY_SSIZE_T_MAX - 1 <= n < 0 ->
  outcome (get_random_bytes P n) w
  = Raise (ValueError ("Array length must be >= 0, not " +:+ pretty n))
  /\ ValueError ("Array length must be >= 0, not " +:+ pretty n)
     <> RandomGenerationError.
Proof.
  intros Hn. unfold outcome. rewrite get_random_bytes_eq.
  unfold buffer_error, array_length_error.
  destruct (n <? - PY_SSIZE_T_MAX - 1) eqn:H1; [lia|].
  destruct (PY_SSIZE_T_MAX <? n) eqn:H2; [unfold PY_SSIZE_T_MAX in *; lia|].
  destruct (n <? 0) eqn:H3; [|lia].
  split; [reflexivity|]. intros H. discriminate H.
Qed.

Lemma get_random_bytes_negative_value_error_witness :
  - PY_SSIZE_T_MAX - 1 <= -5 < 0
  /\ outcome (get_random_bytes demo_platform (-5)) initial_world
     = Raise (ValueError "Array length must be >= 0, not -5").
Proof.
  split; [unfold PY_SSIZE_T_MAX; lia|].
  apply (get_random_bytes_negative_value_error demo_platform (-5) initial_world).
  unfold PY_SSIZE_T_MAX. lia.
Defined.

(** ** Which errors escape, and when a value comes back *)

(** X3. The exceptions that [get_random_bytes] lets escape are those
    of the array constructor ([OverflowError] and [ValueError] for the
    length, [MemoryError] for the storage), those of the lookup of the
    library and of its symbol, and its own [ValueError]; the conversion
    of [n] to a C [int] never fails, the array constructor having
    bounded [n]. *)
Theorem get_random_bytes_escaping_errors
    (P : Platform) (n : Z) (w : World) (e : PyExn) :
  outcome (get_random_bytes P n) w = Raise e ->
  e ∈ [ OverflowError "cannot fit 'int' into an index-sized integer";
        ValueError ("Array length must be >= 0, not " +:+ pretty n);
        MemoryError;
        AttributeError "util";
        OSError;
        AttributeError "SecRandomCopyBytes";
        RandomGenerationError ].
Proof.
  intros Hraise. run_cases P n w.
  - injection Hraise as <-. unfold buffer_error, array_length_error in Hlen.
    destruct (_ || _); [injection Hlen as <-; set_solver|].
    destruct (n <? 0); [injection Hlen as <-; set_solver|].
    unfold allocation_error in Hlen.
    destruct (_ || _); [discriminate|injection Hlen as <-; set_solver].
  - injection Hraise as <-. unfold resolve_error in Hres.
    destruct (negb (ctypes_util P)); [injection Hres as <-; set_solver|].
    destruct (negb (dlopen P _)); [injection Hres as <-; set_solver|].
    destruct (negb (dlsym P _ _)); [injection Hres as <-; set_solver|discriminate].
  - discriminate.
  - injection Hraise as <-. set_solver.
Qed.

Lemma get_random_bytes_escaping_errors_witness :
  outcome (get_random_bytes demo_platform (2 ^ 47)) initial_world = Raise MemoryError
  /\ MemoryError
     ∈ [ OverflowError "cannot fit 'int' into an index-sized integer";
         ValueError ("Array length must be >= 0, not " +:+ pretty (2 ^ 47));
         MemoryError;
         AttributeError "util";
         OSError;
         AttributeError "SecRandomCopyBytes";
         RandomGenerationError ].
Proof.
  split; [reflexivity|].
  apply (get_random_bytes_escaping_errors demo_platform (2 ^ 47) initial_world).
  reflexivity.
Defined.


(** ** The byte count the primitive receives *)

(** X5. When the call is made, its first argument is the null
    pointer and the count the primitive receives is [n] reduced to a
    32-bit C [int]: it lies between [-2^31] and [2^31 - 1], differs from
    [n] by a multiple of [2^32], and is [n] itself exactly when [n] is
    below [2^31]; the buffer passed, however, always has [n] bytes. *)
Theorem get_random_bytes_count_masked
    (P : Platform) (n : Z) (w : World) (c : Call) :
  invoked_once (get_random_bytes P n) w c ->
  arg_rnd c = NULL
  /\ - 2 ^ 31 <= arg_count c < 2 ^ 31
  /\ (n - arg_count c) mod 2 ^ 32 = 0
  /\ (arg_count c = n <-> n < 2 ^ 31)
  /\ exists bs, is_buffer_of c (after (get_random_bytes P n) w) bs
                /\ Z.of_nat (length bs) = n.
Proof.
  intros Hc. apply run_invoked in Hc as (Hbuf & Hres & ->).
  pose proof Hbuf as [Hn _]%buffer_ok.
  unfold is_buffer_of, after.
  rewrite (run_reached P n w Hbuf Hres). cbn [snd calls heap arg_rnd arg_count arg_bytes].
  split; [reflexivity|].
  assert (0 <= n mod 2 ^ 32 < 2 ^ 32) as Hmod by (apply Z.mod_pos_bound; lia).
  unfold c_int. cbv zeta.
  destruct (n mod 2 ^ 32 <? 2 ^ 31) eqn:Hlow.
  - apply Z.ltb_lt in Hlow. split; [lia|].
    split; [rewrite Zminus_mod_idemp_r, Z.sub_diag; reflexivity|].
    split.
    + split; [intros Heq; rewrite <- Heq; exact Hlow|].
      intros Hsmall. apply Z.mod_small. lia.
    + eexists. split; [eexists; split; [reflexivity|apply lookup_insert_eq]|].
      rewrite length_poke. apply length_zeros. lia.
  - apply Z.ltb_ge in Hlow. split; [lia|].
    split.
    { replace (n - (n mod 2 ^ 32 - 2 ^ 32)) with (n - n mod 2 ^ 32 + 1 * 2 ^ 32) by lia.
      rewrite Z.mod_add by lia. rewrite Zminus_mod_idemp_r, Z.sub_diag. reflexivity. }
    split.
    + split; [intros Heq; lia|].
      intros Hsmall. rewrite Z.mod_small in Hlow by lia. lia.
    + eexists. split; [eexists; split; [reflexivity|apply lookup_insert_eq]|].
      rewrite length_poke. apply length_zeros. lia.
Qed.

Lemma get_random_bytes_count_masked_witness :
  invoked_once (get_random_bytes demo_platform 24) initial_world
    (mkCall NULL 24 (Ptr 1) 0)
  /\ arg_rnd (mkCall NULL 24 (Ptr 1) 0) = NULL
  /\ - 2 ^ 31 <= arg_count (mkCall NULL 24 (Ptr 1) 0) < 2 ^ 31
  /\ (24 - arg_count (mkCall NULL 24 (Ptr 1) 0)) mod 2 ^ 32 = 0
  /\ (arg_count (mkCall NULL 24 (Ptr 1) 0) = 24 <-> 24 < 2 ^ 31)
  /\ exists bs,
       is_buffer_of (mkCall NULL 24 (Ptr 1) 0)
         (after (get_random_bytes demo_platform 24) initial_world) bs
       /\ Z.of_nat (length bs) = 24.
Proof.
  split; [reflexivity|].
  apply (get_random_bytes_count_masked demo_platform 24 initial_world
           (mkCall NULL 24 (Ptr 1) 0)).
  reflexivity.
Defined.

(** ** Bytes the primitive did not store *)

(** X6. The value returned is the zeroed buffer overlaid with what the
    primitive stored: the first [n] bytes stored, then zeros up to [n].
    Bytes the primitive leaves unwritten while reporting success come
    back as zeros. *)
Theorem get_random_bytes_zero_padded
    (P : Platform) (n : Z) (w : World) (bs : list byte) :
  outcome (get_random_bytes P n) w = Ok bs ->
  bs = take (Z.to_nat n) (snd (SecRandomCopyBytes P (calls w) NULL (c_int n) (zeros n)))
       ++ replicate
            (Z.to_nat n
             - length (snd (SecRandomCopyBytes P (calls w) NULL (c_int n) (zeros n))))
            x00.
Proof.
  intros Hok. apply run_returned in Hok as (_ & _ & _ & ->).
  unfold poke, answer, zeros. rewrite length_replicate, drop_replicate. reflexivity.
Qed.

Lemma get_random_bytes_zero_padded_witness :
  outcome (get_random_bytes (terse_platform [xab; xcd]) 4) initial_world
  = Ok [xab; xcd; x00; x00]
  /\ [xab; xcd; x00; x00]
     = take (Z.to_nat 4)
         (snd (SecRandomCopyBytes (terse_platform [xab; xcd]) (calls initial_world)
                 NULL (c_int 4) (zeros 4)))
       ++ replicate
            (Z.to_nat 4
             - length (snd (SecRandomCopyBytes (terse_platform [xab; xcd])
                              (calls initial_world) NULL (c_int 4) (zeros 4))))
            x00.
Proof.
  split; [reflexivity|].
  apply (get_random_bytes_zero_padded (terse_platform [xab; xcd]) 4 initial_world).
  reflexivity.
Defined.

(** ** Looking the library up *)

(** X7. Once the buffer is built: when [find_library] finds no
    Security library, its [None] is handed to [LoadLibrary] unchecked,
    which opens the running process; where that has no symbol
    [SecRandomCopyBytes], the error that escapes is the [AttributeError]
    of the symbol, and the platform is not called. *)
Theorem get_random_bytes_library_not_found (P : Platform) (n : Z) (w : World) :
  buffer_error P n = None ->
  ctypes_util P = true ->
  find_library P "Security" = None ->
  dlopen P None = true ->
  dlsym P None "SecRandomCopyBytes" = false ->
  outcome (get_random_bytes P n) w = Raise (AttributeError "SecRandomCopyBytes")
  /\ invoked_never (get_random_bytes P n) w.
Proof.
  intros Hn Hutil Hfind Hopen Hsym.
  unfold invoked_never, outcome, after. rewrite get_random_bytes_eq, Hn.
  unfold resolve_error. rewrite Hutil, Hfind, Hopen, Hsym. split; reflexivity.
Qed.

Lemma get_random_bytes_library_not_found_witness :
  buffer_error no_framework_platform 8 = None
  /\ ctypes_util no_framework_platform = true
  /\ find_library no_framework_platform "Security" = None
  /\ dlopen no_framework_platform None = true
  /\ dlsym no_framework_platform None "SecRandomCopyBytes" = false
  /\ outcome (get_random_bytes no_framework_platform 8) initial_world
     = Raise (AttributeError "SecRandomCopyBytes")
  /\ invoked_never (get_random_bytes no_framework_platform 8) initial_world.
Proof.
  do 5 (split; [reflexivity|]).
  apply (get_random_bytes_library_not_found no_framework_platform 8 initial_world);
    reflexivity.
Defined.

(** ** The script as a whole *)

Lemma get_random_bytes_keeps (P : Platform) (n : Z) (w : World) :
  globals (after (get_random_bytes P n) w) = globals w
  /\ stdout (after (get_random_bytes P n) w) = stdout w.
Proof. run_cases P n w; split; reflexivity. Qed.

(** X8. Where [ctypes.util] is not bound, and [import ctypes] does not
    bind it, the script ends with [AttributeError] for [util]: it
    prints nothing and never calls the platform. *)
Theorem program_unbound_util (P : Platform) (w : World) :
  ctypes_util P = false ->
  outcome (program P) w = Raise (AttributeError "util")
  /\ stdout (after (program P) w) = stdout w
  /\ invoked_never (program P) w.
Proof.
  intros Hutil. unfold invoked_never, outcome, after.
  rewrite program_eq, get_random_bytes_eq.
  rewrite (buffer_inline P 8) by (unfold INLINE_BUFFER; lia).
  unfold resolve_error. rewrite Hutil. cbn. repeat split; reflexivity.
Qed.

Lemma program_unbound_util_witness :
  ctypes_util stock_interpreter = false
  /\ outcome (program stock_interpreter) initial_world = Raise (AttributeError "util")
  /\ stdout (after (program stock_interpreter) initial_world) = stdout initial_world
  /\ invoked_never (program stock_interpreter) initial_world.
Proof.
  split; [reflexivity|].
  apply (program_unbound_util stock_interpreter initial_world). reflexivity.
Defined.

(** X9. Whatever error ends the script, it is the error of
    [get_random_bytes(8)], nothing has been printed, and the name
    [random_bytes] is as it was before the script ran, while [ctypes],
    [os] and [get_random_bytes] are bound. *)
Theorem program_error (P : Platform) (w : World) (e : PyExn) :
  outcome (program P) w = Raise e ->
  outcome (get_random_bytes P 8) (prelude w) = Raise e
  /\ stdout (after (program P) w) = stdout w
  /\ globals (after (program P) w) !! "random_bytes" = globals w !! "random_bytes"
  /\ globals (after (program P) w) !! "ctypes" = Some (PyModule "ctypes")
  /\ globals (after (program P) w) !! "os" = Some (PyModule "os")
  /\ globals (after (program P) w) !! "get_random_bytes"
     = Some (PyFunction "get_random_bytes").
Proof.
  unfold outcome, after. rewrite program_eq.
  destruct (get_random_bytes_keeps P 8 (prelude w)) as [Hglobals Hstdout].
  unfold after in Hglobals, Hstdout.
  destruct (get_random_bytes P 8 (prelude w)) as [[bs|e'] w1]; [discriminate|].
  cbn [fst snd] in *. intros [= ->]. rewrite Hglobals, Hstdout.
  split; [reflexivity|]. split; [reflexivity|].
  unfold prelude. cbn [globals set_globals].
  repeat split; simplify_map_eq; reflexivity.
Qed.

Lemma program_error_witness :
  outcome (program (failing_platform [])) initial_world = Raise RandomGenerationError
  /\ outcome (get_random_bytes (failing_platform []) 8) (prelude initial_world)
     = Raise RandomGenerationError
  /\ stdout (after (program (failing_platform [])) initial_world) = stdout initial_world
  /\ globals (after (program (failing_platform [])) initial_world) !! "random_bytes"
     = globals initial_world !! "random_bytes"
  /\ globals (after (program (failing_platform [])) initial_world) !! "ctypes"
     = Some (PyModule "ctypes")
  /\ globals (after (program (failing_platform [])) initial_world) !! "os"
     = Some (PyModule "os")
  /\ globals (after (program (failing_platform [])) initial_world) !! "get_random_bytes"
     = Some (PyFunction "get_random_bytes").
Proof.
  split; [reflexivity|].
  apply (program_error (failing_platform []) initial_world RandomGenerationError).
  reflexivity.
Defined.

(** What a successful run of the script did. *)
Lemma program_ok_inv (P : Platform) (w : World) :
  outcome (program P) w = Ok tt ->
  exists bs,
    outcome (get_random_bytes P 8) (prelude w) = Ok bs
    /\ length bs = 8%nat
    /\ globals (after (program P) w)
       = <["random_bytes" := PyBytes bs]> (globals (prelude w))
    /\ stdout (after (program P) w)
       = stdout w +:+ "Random 64-bit number:  " +:+ hex bs +:+ newline
    /\ calls (after (program P) w)
       = calls w ++ [mkCall NULL 8 (Ptr (fresh (dom (heap w)))) 0].
Proof.
  unfold outcome, after. rewrite program_eq.
  destruct (get_random_bytes P 8 (prelude w)) as [[bs|e] w1] eqn:Hrun;
    [|discriminate].
  intros _. exists bs.
  assert (outcome (get_random_bytes P 8) (prelude w) = Ok bs) as Hok
    by (unfold outcome; rewrite Hrun; reflexivity).
  destruct (run_returned _ _ _ _ Hok) as (Hlen & Hres & Hst & Hbs).
  rewrite (run_reached _ _ _ Hlen Hres), Hst in Hrun. injection Hrun as _ <-.
  cbn. split; [reflexivity|]. split; [|auto].
  rewrite Hbs, length_poke. reflexivity.
Qed.

(** X10. When the script succeeds it has called the platform exactly
    once, for 8 bytes through a null first argument, it has bound
    [random_bytes] to the 8 bytes [get_random_bytes] returned, and apart
    from that name, [ctypes], [os] and [get_random_bytes] the module
    namespace is as before. *)
Theorem program_success (P : Platform) (w : World) :
  outcome (program P) w = Ok tt ->
  exists bs a,
    outcome (get_random_bytes P 8) (prelude w) = Ok bs
    /\ length bs = 8%nat
    /\ invoked_once (program P) w (mkCall NULL 8 (Ptr a) 0)
    /\ globals (after (program P) w) !! "random_bytes" = Some (PyBytes bs)
    /\ forall name,
         name ∉ ["random_bytes"; "ctypes"; "os"; "get_random_bytes"] ->
         globals (after (program P) w) !! name = globals w !! name.
Proof.
  intros (bs & Hok & Hlen & Hglobals & _ & Hcalls)%program_ok_inv.
  exists bs, (fresh (dom (heap w))). rewrite Hglobals. unfold prelude.
  cbn [globals set_globals].
  split; [exact Hok|]. split; [exact Hlen|]. split; [exact Hcalls|].
  split; [apply lookup_insert_eq|].
  intros name Hname. rewrite !lookup_insert_ne; [reflexivity|set_solver..].
Qed.

Lemma program_success_witness :
  outcome (program demo_platform) initial_world = Ok tt
  /\ exists bs a,
       outcome (get_random_bytes demo_platform 8) (prelude initial_world) = Ok bs
       /\ length bs = 8%nat
       /\ invoked_once (program demo_platform) initial_world (mkCall NULL 8 (Ptr a) 0)
       /\ globals (after (program demo_platform) initial_world) !! "random_bytes"
          = Some (PyBytes bs)
       /\ forall name,
            name ∉ ["random_bytes"; "ctypes"; "os"; "get_random_bytes"] ->
            globals (after (program demo_platform) initial_world) !! name
            = globals initial_world !! name.
Proof.
  split; [reflexivity|].
  apply (program_success demo_platform initial_world). reflexivity.
Defined.

(** ** Reading the printed number back *)

Lemma append_inv_head (s a b : string) : s +:+ a = s +:+ b -> a = b.
Proof.
  induction s as [|c s IH]; [auto|].
  change (String c (s +:+ a) = String c (s +:+ b) -> a = b).
  intros [= H]. auto.
Qed.

Lemma unhex_hex_byte (b : byte) :
  unhex_byte (hexdigit (Byte.to_N b / 16)) (hexdigit (Byte.to_N b mod 16)) = Some b.
Proof. destruct b; reflexivity. Qed.

Lemma hex_inj_suffix (bs1 bs2 : list byte) (t : string) :
  length bs1 = length bs2 ->
  hex bs1 +:+ t = hex bs2 +:+ t ->
  bs1 = bs2.
Proof.
  revert bs2. induction bs1 as [|b1 bs1 IH]; intros [|b2 bs2] Hlen Heq;
    try discriminate Hlen; [reflexivity|].
  rewrite !hex_cons in Heq.
  change (String ?c1 (String ?c2 ?s) +:+ t) with (String c1 (String c2 (s +:+ t))) in Heq.
  injection Heq as Hhi Hlo Hrest.
  pose proof (unhex_hex_byte b1) as H1. rewrite Hhi, Hlo, unhex_hex_byte in H1.
  injection H1 as <-. f_equal. apply IH; [|exact Hrest].
  cbn in Hlen. lia.
Qed.

(** X11. The printed line tells the bytes: two successful runs of the
    script that start with the same text on standard output and end
    with the same text have bound [random_bytes] to the same bytes. *)
Theorem program_output_determines_bytes (P1 P2 : Platform) (w1 w2 : World) :
  outcome (program P1) w1 = Ok tt ->
  outcome (program P2) w2 = Ok tt ->
  stdout w1 = stdout w2 ->
  stdout (after (program P1) w1) = stdout (after (program P2) w2) ->
  globals (after (program P1) w1) !! "random_bytes"
  = globals (after (program P2) w2) !! "random_bytes".
Proof.
  intros (bs1 & _ & Hlen1 & Hg1 & Hout1 & _)%program_ok_inv.
  intros (bs2 & _ & Hlen2 & Hg2 & Hout2 & _)%program_ok_inv.
  intros Hbefore Hafter. rewrite Hg1, Hg2, !lookup_insert_eq.
  rewrite Hout1, Hout2, Hbefore in Hafter.
  apply append_inv_head, append_inv_head in Hafter.
  rewrite (hex_inj_suffix bs1 bs2 newline); [reflexivity| |exact Hafter].
  rewrite Hlen1, Hlen2. reflexivity.
Qed.

Lemma program_output_determines_bytes_witness :
  outcome (program demo_platform) initial_world = Ok tt
  /\ outcome (program (terse_platform [xab; xd0; xf5; x1a; x3f; x64; x89; xae]))
       busy_world = Ok tt
  /\ stdout initial_world = stdout busy_world
  /\ stdout (after (program demo_platform) initial_world)
     = stdout (after (program (terse_platform [xab; xd0; xf5; x1a; x3f; x64; x89; xae]))
                 busy_world)
  /\ globals (after (program demo_platform) initial_world) !! "random_bytes"
     = globals (after (program (terse_platform [xab; xd0; xf5; x1a; x3f; x64; x89; xae]))
                  busy_world) !! "random_bytes".
Proof.
  do 4 (split; [reflexivity|]).
  apply (program_output_determines_bytes demo_platform
           (terse_platform [xab; xd0; xf5; x1a; x3f; x64; x89; xae])
           initial_world busy_world); reflexivity.
Defined.

(** ** What the caller gets is what the platform stored *)

(** X12. When the primitive stores exactly [n] bytes and reports
    success, [get_random_bytes n] returns exactly those bytes, in the
    order they were stored. *)
Theorem get_random_bytes_returns_stored
    (P : Platform) (n : Z) (w : World) (bs : list byte) :
  outcome (get_random_bytes P n) w = Ok bs ->
  Z.of_nat (length (snd (SecRandomCopyBytes P (calls w) NULL (c_int n) (zeros n)))) = n ->
  bs = snd (SecRandomCopyBytes P (calls w) NULL (c_int n) (zeros n)).
Proof.
  intros Hok Hstored. apply run_returned in Hok as (_ & _ & _ & ->).
  unfold poke, answer, zeros in *. rewrite length_replicate.
  rewrite drop_ge by (rewrite length_replicate; lia).
  rewrite app_nil_r. apply take_ge. lia.
Qed.

Lemma get_random_bytes_returns_stored_witness :
  outcome (get_random_bytes demo_platform 3) initial_world = Ok [xab; xd0; xf5]
  /\ Z.of_nat (length (snd (SecRandomCopyBytes demo_platform (calls initial_world)
                              NULL (c_int 3) (zeros 3)))) = 3
  /\ [xab; xd0; xf5]
     = snd (SecRandomCopyBytes demo_platform (calls initial_world) NULL (c_int 3) (zeros 3)).
Proof.
  split; [reflexivity|]. split; [reflexivity|].
  apply (get_random_bytes_returns_stored demo_platform 3 initial_world);
    reflexivity.
Defined.
